(** * The opencoder configuration module [AI/core/config.ts]

    The repository is one ES module.  Its body calls the imported factory
    [ollama] once and default-exports an object literal with the properties
    [model], [systemPrompt] and [maxTokens].  The development below embeds
    the module body as a script over the one external call it makes, runs it
    against an arbitrary factory, and states the properties of the exported
    object. *)

From Stdlib Require Import ZArith Ascii String.
From stdpp Require Import base option list strings gmap fin_maps.

Local Open Scope string_scope.
Local Open Scope Z_scope.

(** ** JavaScript values that occur in the module *)

Module Js.

(** The values the object literal holds: a string (kept as the UTF-8 bytes
    of the source file's literal), a number written as an integer literal,
    and the handle returned by the provider factory. *)
Inductive Value (Model : Type) : Type :=
| Str (s : string)
| Num (n : Z)
| Ref (m : Model).

Arguments Str {Model} s.
Arguments Num {Model} n.
Arguments Ref {Model} m.

(** Evaluation of an object literal [{ k1: v1, ..., kn: vn }]: the
    properties are defined left to right on a fresh empty object, a later
    definition of a name replacing an earlier one.  An object is a finite
    map from the names of its own properties to their values.  The name
    [__proto__] is the exception JavaScript makes: written in a literal, or
    assigned to, it sets the prototype (or does nothing) and defines no own
    property; prototypes are not modelled, so it leaves the map as it is. *)
Definition define {Model} (o : gmap string (Value Model))
    (p : string * Value Model) : gmap string (Value Model) :=
  if String.eqb p.1 "__proto__" then o else <[p.1 := p.2]> o.

Definition literal {Model} (props : list (string * Value Model))
  : gmap string (Value Model) :=
  foldl define ∅ props.

(** The initialisers that define an own property. *)
Definition own {Model} (p : string * Value Model) : Prop :=
  p.1 ≠ "__proto__".

(** The bytes of a string, each as a number below 256. *)
Definition bytes (s : string) : list Z :=
  map (fun c => Z.of_N (N_of_ascii c)) (list_ascii_of_string s).

(** A JavaScript string is a sequence of UTF-16 code units; the source file
    is UTF-8.  [code_units] decodes the one-, two- and three-byte sequences
    of UTF-8 (the Basic Multilingual Plane, one code unit each) and fails on
    anything else. *)
Definition continuation (b : Z) : bool := (128 <=? b) && (b <? 192).

Fixpoint code_units (bs : list Z) : option (list Z) :=
  match bs with
  | [] => Some []
  | b0 :: rest =>
      if b0 <? 128 then cons b0 <$> code_units rest
      else match rest with
           | [] => None
           | b1 :: rest1 =>
               if (192 <=? b0) && (b0 <? 224) && continuation b1 then
                 cons (Z.lor (Z.shiftl (Z.land b0 31) 6) (Z.land b1 63))
                   <$> code_units rest1
               else match rest1 with
                    | [] => None
                    | b2 :: rest2 =>
                        if (224 <=? b0) && (b0 <? 240)
                           && continuation b1 && continuation b2 then
                          cons (Z.lor (Z.shiftl (Z.land b0 15) 12)
                                  (Z.lor (Z.shiftl (Z.land b1 63) 6)
                                     (Z.land b2 63)))
                            <$> code_units rest2
                        else None
                    end
           end
  end.

(** [Number.isSafeInteger]: the integers a JavaScript number holds exactly. *)
Definition isSafeInteger (n : Z) : bool :=
  (- (2 ^ 53) <? n) && (n <? 2 ^ 53).

End Js.

(** ** Module bodies as scripts over the imported factory *)

(** The only thing the body of [config.ts] does besides building data is to
    call the binding [ollama] imported from [ollama-ai-provider].  A script
    is either finished with a value or calls that factory with a model name
    and goes on with the handle it gets back. *)
Inductive Script (Model A : Type) : Type :=
| Done (a : A)
| CallOllama (name : string) (k : Model -> Script Model A).

Arguments Done {Model A} a.
Arguments CallOllama {Model A} name k.

Fixpoint bind {Model A B} (s : Script Model A) (f : A -> Script Model B)
  : Script Model B :=
  match s with
  | Done a => f a
  | CallOllama name k => CallOllama name (fun m => bind (k m) f)
  end.

#[global] Instance script_ret {Model} : MRet (Script Model) :=
  fun A a => Done a.
#[global] Instance script_bind {Model} : MBind (Script Model) :=
  fun A B f s => bind s f.

Definition ollama_call {Model} (name : string) : Script Model Model :=
  CallOllama name Done.

(** The number of factory calls along the path a script takes when the
    factory answers [answer]. *)
Fixpoint call_count {Model A} (answer : string -> Model) (s : Script Model A)
  : nat :=
  match s with
  | Done _ => 0%nat
  | CallOllama name k => S (call_count answer (k (answer name)))
  end.

(** ** [config.ts] *)

(** The module body, lines 4 to 11: the initialisers of the object literal
    are evaluated in source order, so the factory call comes first. *)
Definition config_ts {Model} : Script Model (gmap string (Js.Value Model)) :=
  model ← ollama_call "qwen2.5-coder:7b";
  mret (Js.literal
          [ ("model", Js.Ref model);
            ("systemPrompt",
              Js.Str "Ты - опытный программист, помогающий писать чистый и эффективный код.");
            ("maxTokens", Js.Num 4096) ]).

(** The same module with another model identifier written on line 6. *)
Definition config_ts_with {Model} (name : string)
  : Script Model (gmap string (Js.Value Model)) :=
  model ← ollama_call name;
  mret (Js.literal
          [ ("model", Js.Ref model);
            ("systemPrompt",
              Js.Str "Ты - опытный программист, помогающий писать чистый и эффективный код.");
            ("maxTokens", Js.Num 4096) ]).

(** ** Running a script *)

(** The factory is a function of the JavaScript runtime: it may read and
    change the world outside the module.  A run threads the world through
    the calls and records the arguments of the calls in order. *)
Definition Factory (Model World : Type) : Type :=
  string -> World -> Model * World.

Record Outcome (A World : Type) : Type := MkOutcome {
  value : A;
  world : World;
  calls : list string
}.

Arguments MkOutcome {A World} value world calls.
Arguments value {A World} o.
Arguments world {A World} o.
Arguments calls {A World} o.

Fixpoint run {Model World A} (ollama : Factory Model World)
    (s : Script Model A) (w : World) : Outcome A World :=
  match s with
  | Done a => MkOutcome a w []
  | CallOllama name k =>
      let r := run ollama (k (ollama name w).1) (ollama name w).2 in
      MkOutcome (value r) (world r) (name :: calls r)
  end.

(** One load of the configuration. *)
Definition load {Model World} (ollama : Factory Model World) (w : World)
  : Outcome (gmap string (Js.Value Model)) World :=
  run ollama config_ts w.

(** ** The record in the host process *)

(** Modelled from the spec: the loader of the host application and the
    host's use of the record, which are not part of the repository.
    Sections 2 and 3 of the spec have the record created once per process,
    at load time, by the host's loader, and living for the duration of the
    process: a process is one load followed by what the host does with the
    record.  What a holder of the reference can do is what JavaScript
    allows on an ordinary object: read a property or, the literal of
    [config.ts] being neither frozen nor read-only, assign to one.  All
    importers hold the same object, so there is one record per process and
    an assignment is an update of it. *)
Inductive HostOp (Model : Type) : Type :=
| Read (k : string)
| Write (k : string) (v : Js.Value Model).

Arguments Read {Model} k.
Arguments Write {Model} k v.

Definition host_step {Model} (o : gmap string (Js.Value Model))
    (op : HostOp Model) : gmap string (Js.Value Model) :=
  match op with
  | Read _ => o
  | Write k v => Js.define o (k, v)
  end.

Definition writes_to {Model} (k : string) (op : HostOp Model) : bool :=
  match op with
  | Read _ => false
  | Write k' _ => String.eqb k' k
  end.

Definition process {Model World} (ollama : Factory Model World) (w : World)
    (ops : list (HostOp Model))
  : Outcome (gmap string (Js.Value Model)) World :=
  let r := load ollama w in
  MkOutcome (foldl host_step (value r) ops) (world r) (calls r).

(** A factory that makes a new handle at every call, as a JavaScript
    factory that allocates an object does: the world is the number of
    handles made so far, and the handle is its number. *)
Definition fresh_handles : Factory nat nat :=
  fun _ n => (n, S n).

(** ** A factory that may throw *)

(** A call in JavaScript completes normally, with a value, or abruptly,
    with a thrown error.  The body of [config.ts] has no [try]: when the
    call on line 6 throws, the object literal is never built and the
    evaluation of the module ends with that error. *)
Inductive Completion (E A : Type) : Type :=
| Normal (a : A)
| Throw (e : E).

Arguments Normal {E A} a.
Arguments Throw {E A} e.

Definition ThrowingFactory (Model World E : Type) : Type :=
  string -> World -> Completion E Model * World.

Fixpoint run_try {Model World E A} (ollama : ThrowingFactory Model World E)
    (s : Script Model A) (w : World) : Outcome (Completion E A) World :=
  match s with
  | Done a => MkOutcome (Normal a) w []
  | CallOllama name k =>
      match (ollama name w).1 with
      | Normal m =>
          let r := run_try ollama (k m) (ollama name w).2 in
          MkOutcome (value r) (world r) (name :: calls r)
      | Throw e => MkOutcome (Throw e) (ollama name w).2 [name]
      end
  end.

Definition load_try {Model World E} (ollama : ThrowingFactory Model World E)
    (w : World)
  : Outcome (Completion E (gmap string (Js.Value Model))) World :=
  run_try ollama config_ts w.

(** A factory that never throws, seen as one that may. *)
Definition never_throws {Model World E} (ollama : Factory Model World)
  : ThrowingFactory Model World E :=
  fun name w => (Normal (ollama name w).1, (ollama name w).2).

(** ** What the module imports: the host schema and the provider *)

Module Host.

Inductive FieldType : Type := TModel | TString | TInteger.

Definition has_type {Model} (t : FieldType) (v : Js.Value Model) : bool :=
  match t, v with
  | TModel, Js.Ref _ => true
  | TString, Js.Str _ => true
  | TInteger, Js.Num n => Js.isSafeInteger n
  | _, _ => false
  end.

(** A schema gives every field it recognises a type and says whether the
    field is required. *)
Definition required_fields : gmap string (FieldType * bool) :=
  {[ "model" := (TModel, true);
     "systemPrompt" := (TString, true);
     "maxTokens" := (TInteger, true) ]}.

(** Modelled from the spec: the type [Config] of the package [opencoder],
    which the module only imports.  Section 6 of the spec gives the schema
    at least the fields [model] (model reference), [systemPrompt] (string)
    and [maxTokens] (integer); section 4.1 lets it define further optional
    fields, taken here as the parameter [optional]. *)
Definition Config (optional : gmap string FieldType)
  : gmap string (FieldType * bool) :=
  required_fields ∪ ((fun t => (t, false)) <$> optional).

Definition field_ok {Model} (f : FieldType * bool)
    (present : option (Js.Value Model)) : bool :=
  match present with
  | Some v => has_type f.1 v
  | None => negb f.2
  end.

(** [o satisfies schema]: every field of the schema that is required is
    present, every field present has the type the schema gives it, and the
    literal has no property the schema does not know. *)
Definition satisfies {Model} (schema : gmap string (FieldType * bool))
    (o : gmap string (Js.Value Model)) : Prop :=
  map_Forall (fun k f => field_ok f (o !! k) = true) schema
  ∧ dom o ⊆ dom schema.

#[global] Instance satisfies_dec {Model} schema (o : gmap string (Js.Value Model))
  : Decision (satisfies schema o).
Proof. unfold satisfies. apply _. Defined.

End Host.

Module Provider.

(** A provider binding: which provider, which model. *)
Record ModelRef : Type := MkModelRef {
  provider : string;
  modelId : string
}.

(** Modelled from the spec: the factory [ollama] of the package
    [ollama-ai-provider], which the module only imports.  Sections 4.1 and 9
    of the spec describe the binding as lazy, a pure descriptor of provider
    name and model name that opens no connection: the world is returned as
    it was. *)
Definition ollama {World} : Factory ModelRef World :=
  fun name w => (MkModelRef "ollama" name, w).

Definition identifier_char (c : ascii) : bool :=
  let n := Z.of_N (N_of_ascii c) in
  ((48 <=? n) && (n <=? 57))        (* 0-9 *)
  || ((65 <=? n) && (n <=? 90))     (* A-Z *)
  || ((97 <=? n) && (n <=? 122))    (* a-z *)
  || (n =? 45) || (n =? 46) || (n =? 47) || (n =? 58) || (n =? 95).
                                    (* - . / : _ *)

(** Modelled from the spec: the provider's naming convention, which
    section 8 of the spec reads as a non-empty identifier string; taken here
    as a non-empty string of letters, digits and the marks [- . / : _]. *)
Definition is_model_identifier (s : string) : bool :=
  negb (String.eqb s "") && forallb identifier_char (list_ascii_of_string s).

End Provider.

(** ** The values the spec names *)

(** The [systemPrompt] of section 8 of the spec, item 5, byte by byte as it
    stands in the spec's UTF-8 text. *)
Definition spec_systemPrompt_bytes : list Z :=
  [208; 162; 209; 139; 32; 45; 32; 208; 190; 208; 191; 209; 139; 209; 130;
   208; 189; 209; 139; 208; 185; 32; 208; 191; 209; 128; 208; 190; 208; 179;
   209; 128; 208; 176; 208; 188; 208; 188; 208; 184; 209; 129; 209; 130; 44;
   32; 208; 191; 208; 190; 208; 188; 208; 190; 208; 179; 208; 176; 209; 142;
   209; 137; 208; 184; 208; 185; 32; 208; 191; 208; 184; 209; 129; 208; 176;
   209; 130; 209; 140; 32; 209; 135; 208; 184; 209; 129; 209; 130; 209; 139;
   208; 185; 32; 208; 184; 32; 209; 141; 209; 132; 209; 132; 208; 181; 208;
   186; 209; 130; 208; 184; 208; 178; 208; 189; 209; 139; 208; 185; 32; 208;
   186; 208; 190; 208; 180; 46].

(** The same text as Unicode code points (all of them in the Basic
    Multilingual Plane, so these are its UTF-16 code units as well). *)
Definition spec_systemPrompt_units : list Z :=
  [1058; 1099; 32; 45; 32; 1086; 1087; 1099; 1090; 1085; 1099; 1081; 32;
   1087; 1088; 1086; 1075; 1088; 1072; 1084; 1084; 1080; 1089; 1090; 44; 32;
   1087; 1086; 1084; 1086; 1075; 1072; 1102; 1097; 1080; 1081; 32; 1087;
   1080; 1089; 1072; 1090; 1100; 32; 1095; 1080; 1089; 1090; 1099; 1081; 32;
   1080; 32; 1101; 1092; 1092; 1077; 1082; 1090; 1080; 1074; 1085; 1099;
   1081; 32; 1082; 1086; 1076; 46].

Definition spec_maxTokens : Z := 4096.

(** Reading a property of a given kind off an object. *)
Definition get_string {Model} (o : gmap string (Js.Value Model)) (k : string)
  : option string :=
  match o !! k with Some (Js.Str s) => Some s | _ => None end.

Definition get_number {Model} (o : gmap string (Js.Value Model)) (k : string)
  : option Z :=
  match o !! k with Some (Js.Num n) => Some n | _ => None end.

Definition get_ref {Model} (o : gmap string (Js.Value Model)) (k : string)
  : option Model :=
  match o !! k with Some (Js.Ref m) => Some m | _ => None end.

(** * Properties *)

(** ** The definitions at work *)

(** A later property of a literal replaces an earlier one of that name. *)
Example literal_last_wins :
  Js.literal [("a", Js.Num 1); ("a", @Js.Num unit 2)] !! "a"
  = Some (Js.Num 2).
Proof. reflexivity. Qed.

(** The euro sign, three bytes, is one code unit; a lone lead byte is not
    a string. *)
Example code_units_three_bytes : Js.code_units [226; 130; 172] = Some [8364].
Proof. reflexivity. Qed.

Example code_units_truncated : Js.code_units [208] = None.
Proof. reflexivity. Qed.

Example not_model_identifiers :
  Provider.is_model_identifier "" = false
  ∧ Provider.is_model_identifier "my model" = false.
Proof. split; reflexivity. Qed.

(** The schema turns down a record without [maxTokens], one whose
    [maxTokens] is a string, and one with a property it does not know; it
    takes that property once it is among the optional fields. *)
Example schema_requires_maxTokens :
  bool_decide
    (Host.satisfies (Host.Config ∅)
       (delete "maxTokens" (value (load Provider.ollama tt)))) = false.
Proof. vm_compute. reflexivity. Qed.

Example schema_types_maxTokens :
  bool_decide
    (Host.satisfies (Host.Config ∅)
       (<["maxTokens" := Js.Str "4096"]> (value (load Provider.ollama tt))))
  = false.
Proof. vm_compute. reflexivity. Qed.

Example schema_rejects_unknown_property :
  bool_decide
    (Host.satisfies (Host.Config ∅)
       (<["verbose" := Js.Num 1]> (value (load Provider.ollama tt))))
  = false.
Proof. vm_compute. reflexivity. Qed.

Example schema_accepts_optional_property :
  bool_decide
    (Host.satisfies (Host.Config {[ "verbose" := Host.TInteger ]})
       (<["verbose" := Js.Num 1]> (value (load Provider.ollama tt))))
  = true.
Proof. vm_compute. reflexivity. Qed.

(** A factory that numbers its handles, the number kept in the world: the
    module passes the handle on as it gets it, so the [model] field follows
    the factory while the two literal fields stay. *)
Example numbering_factory :
  let ollama : Factory nat nat := fun _ n => (n, S n) in
  get_ref (value (load ollama 0%nat)) "model" = Some 0%nat
  ∧ get_ref (value (load ollama (world (load ollama 0%nat)))) "model"
    = Some 1%nat
  ∧ get_number (value (load ollama 0%nat)) "maxTokens"
    = get_number (value (load ollama 1%nat)) "maxTokens".
Proof. repeat split. Qed.

(** ** What a load computes *)

Section LoadLemmas.

Context {Model World : Type}.
Implicit Types (ollama : Factory Model World) (w : World).

(** The record a load produces, given the handle the factory returned. *)
Lemma load_unfold ollama w :
  load ollama w =
    MkOutcome
      (<["maxTokens" := Js.Num 4096]>
         (<["systemPrompt" :=
              Js.Str "Ты - опытный программист, помогающий писать чистый и эффективный код."]>
            (<["model" := Js.Ref (ollama "qwen2.5-coder:7b" w).1]> ∅)))
      (ollama "qwen2.5-coder:7b" w).2
      ["qwen2.5-coder:7b"].
Proof. reflexivity. Qed.

Lemma load_maxTokens ollama w :
  value (load ollama w) !! "maxTokens" = Some (Js.Num 4096).
Proof. rewrite load_unfold. cbn [value]. by simplify_map_eq. Qed.

Lemma load_systemPrompt ollama w :
  value (load ollama w) !! "systemPrompt" =
    Some (Js.Str "Ты - опытный программист, помогающий писать чистый и эффективный код.").
Proof. rewrite load_unfold. cbn [value]. by simplify_map_eq. Qed.

Lemma load_model ollama w :
  value (load ollama w) !! "model" =
    Some (Js.Ref (ollama "qwen2.5-coder:7b" w).1).
Proof. rewrite load_unfold. cbn [value]. by simplify_map_eq. Qed.

Lemma load_dom ollama w :
  dom (value (load ollama w))
  = ({[ "model"; "systemPrompt"; "maxTokens" ]} : gset string).
Proof.
  rewrite load_unfold. cbn [value].
  rewrite !dom_insert_L, dom_empty_L. set_solver.
Qed.

Lemma load_other ollama w (k : string) :
  k ∉ ({[ "model"; "systemPrompt"; "maxTokens" ]} : gset string) →
  value (load ollama w) !! k = None.
Proof. intros Hk. apply not_elem_of_dom. by rewrite load_dom. Qed.

End LoadLemmas.

(** ** The literal fields *)

Section Fields.

Context {Model World : Type}.
Implicit Types (ollama : Factory Model World) (w : World).

(** Claim C1.  Whatever the factory and the world, the record a load
    produces has [maxTokens] equal to the number 4096 and [systemPrompt]
    equal to the string of the spec: the same bytes, one for one, and
    therefore the same 69 UTF-16 code units, Cyrillic letters included. *)
Theorem load_literal_fields ollama w :
  get_number (value (load ollama w)) "maxTokens" = Some spec_maxTokens
  ∧ Js.bytes <$> get_string (value (load ollama w)) "systemPrompt"
    = Some spec_systemPrompt_bytes
  ∧ get_string (value (load ollama w)) "systemPrompt"
      ≫= (fun s => Js.code_units (Js.bytes s))
    = Some spec_systemPrompt_units.
Proof.
  unfold get_number, get_string.
  rewrite load_maxTokens, load_systemPrompt.
  split; [reflexivity | split; vm_compute; reflexivity].
Qed.

(** Claim C2.  The [maxTokens] field is a number, an integer that a
    JavaScript number holds exactly, and it is greater than zero. *)
Theorem load_maxTokens_positive ollama w :
  ∃ n : Z,
    value (load ollama w) !! "maxTokens" = Some (Js.Num n)
    ∧ Js.isSafeInteger n = true
    ∧ 0 < n.
Proof.
  exists 4096. split; [apply load_maxTokens |].
  split; [reflexivity | lia].
Qed.

(** Claim C3.  The [systemPrompt] field is a string and it is not the
    empty string: it has at least one byte and at least one code unit. *)
Theorem load_systemPrompt_nonempty ollama w :
  ∃ s : string,
    value (load ollama w) !! "systemPrompt" = Some (Js.Str s)
    ∧ s ≠ ""
    ∧ (0 < String.length s)%nat
    ∧ ∃ u us, Js.code_units (Js.bytes s) = Some (u :: us).
Proof.
  eexists. split; [apply load_systemPrompt |].
  split; [discriminate |].
  split; [vm_compute; lia |].
  vm_compute. eauto.
Qed.

(** Claim C10.  The exported record has the three properties [model],
    [systemPrompt] and [maxTokens] and no other: these three names are its
    whole domain, and it has three entries. *)
Theorem load_exactly_three_fields ollama w :
  dom (value (load ollama w))
  = ({[ "model"; "systemPrompt"; "maxTokens" ]} : gset string)
  ∧ size (value (load ollama w)) = 3%nat
  ∧ ∀ k : string,
      is_Some (value (load ollama w) !! k)
      ↔ k = "model" ∨ k = "systemPrompt" ∨ k = "maxTokens".
Proof.
  split; [apply load_dom |]. split.
  - rewrite load_unfold. cbn [value].
    rewrite !map_size_insert_None, map_size_empty; [done | | | ];
      by simplify_map_eq.
  - intros k. rewrite <- elem_of_dom, load_dom.
    rewrite !elem_of_union, !elem_of_singleton. tauto.
Qed.

End Fields.

(** ** The factory call *)

Section FactoryCall.

Context {Model World : Type}.
Implicit Types (ollama : Factory Model World) (w : World).

(** The body has the shape "one call, then done", whatever comes back. *)
Lemma config_ts_shape :
  ∃ k : Model → gmap string (Js.Value Model),
    config_ts = CallOllama "qwen2.5-coder:7b" (fun m => Done (k m)).
Proof. eexists. reflexivity. Qed.

(** Claim C4.  A load calls the factory exactly once, with the argument
    ['qwen2.5-coder:7b']; the [model] field holds the handle that call
    returned; the argument is a non-empty identifier; and the world after
    the load is the world that call left behind, so the call is the only
    place where the module touches anything outside itself. *)
Theorem load_one_factory_call ollama w :
  calls (load ollama w) = ["qwen2.5-coder:7b"]
  ∧ (∀ answer : string → Model, call_count answer config_ts = 1%nat)
  ∧ get_ref (value (load ollama w)) "model"
    = Some (ollama "qwen2.5-coder:7b" w).1
  ∧ world (load ollama w) = (ollama "qwen2.5-coder:7b" w).2
  ∧ "qwen2.5-coder:7b" ≠ ""
  ∧ Provider.is_model_identifier "qwen2.5-coder:7b" = true.
Proof.
  split; [reflexivity |]. split; [reflexivity |].
  split; [unfold get_ref; by rewrite load_model |].
  split; [reflexivity |]. split; [discriminate | reflexivity].
Qed.

End FactoryCall.

(** ** Conformance to the host schema *)

Section Schema.

Context {Model World : Type}.
Implicit Types (ollama : Factory Model World) (w : World).

Lemma required_fields_lookup (k : string) (f : Host.FieldType * bool) :
  Host.required_fields !! k = Some f →
  (k = "model" ∧ f = (Host.TModel, true))
  ∨ (k = "systemPrompt" ∧ f = (Host.TString, true))
  ∨ (k = "maxTokens" ∧ f = (Host.TInteger, true)).
Proof.
  unfold Host.required_fields. intros H.
  destruct (decide (k = "model")) as [-> | Hm]; [simplify_map_eq; auto |].
  destruct (decide (k = "systemPrompt")) as [-> | Hs];
    [simplify_map_eq; auto |].
  destruct (decide (k = "maxTokens")) as [-> | Ht]; [simplify_map_eq; auto |].
  by simplify_map_eq.
Qed.

Lemma required_fields_dom :
  dom Host.required_fields
  = ({[ "model"; "systemPrompt"; "maxTokens" ]} : gset string).
Proof.
  unfold Host.required_fields.
  rewrite !dom_insert_L, dom_singleton_L. set_solver.
Qed.

(** Claim C5.  For every set of optional fields the host schema may add,
    the record a load produces satisfies the schema: [model] is there and
    is a model reference, [systemPrompt] is there and is a string,
    [maxTokens] is there and is an integer, and the record has no property
    outside the schema. *)
Theorem load_satisfies_Config ollama w (optional : gmap string Host.FieldType) :
  Host.satisfies (Host.Config optional) (value (load ollama w))
  ∧ (∃ m, value (load ollama w) !! "model" = Some (Js.Ref m))
  ∧ (∃ s, value (load ollama w) !! "systemPrompt" = Some (Js.Str s))
  ∧ (∃ n, value (load ollama w) !! "maxTokens" = Some (Js.Num n)
          ∧ Js.isSafeInteger n = true).
Proof.
  split; [split |].
  - intros k f Hk. unfold Host.Config in Hk.
    apply lookup_union_Some_raw in Hk as [Hk | [Hnone Hk]].
    + apply required_fields_lookup in Hk
        as [[-> ->] | [[-> ->] | [-> ->]]].
      * by rewrite load_model.
      * by rewrite load_systemPrompt.
      * by rewrite load_maxTokens.
    + rewrite lookup_fmap in Hk.
      destruct (optional !! k) as [t |] eqn:Ho; [| done].
      injection Hk as <-.
      rewrite load_other; [done |].
      rewrite <- required_fields_dom. by apply not_elem_of_dom.
  - unfold Host.Config. rewrite dom_union_L, load_dom, required_fields_dom.
    apply union_subseteq_l.
  - split; [eexists; apply load_model |].
    split; [eexists; apply load_systemPrompt |].
    eexists. split; [apply load_maxTokens | reflexivity].
Qed.

End Schema.

(** ** Loading twice, and loading with another model *)

Section Determinism.

Context {Model World : Type}.
Implicit Types (ollama : Factory Model World) (w : World).

(** Two loads differ at most in the handle the factory returned. *)
Lemma load_value_eq_iff ollama w1 w2 :
  value (load ollama w1) = value (load ollama w2)
  ↔ (ollama "qwen2.5-coder:7b" w1).1 = (ollama "qwen2.5-coder:7b" w2).1.
Proof.
  split.
  - intros Heq.
    assert (value (load ollama w1) !! "model"
            = value (load ollama w2) !! "model") as Hm by (by rewrite Heq).
    rewrite !load_model in Hm. by injection Hm.
  - intros H. rewrite !load_unfold. cbn [value]. by rewrite H.
Qed.


(** The module with ['qwen2.5-coder:7b'] on line 6 is the module. *)
Lemma config_ts_with_modelName :
  @config_ts_with Model "qwen2.5-coder:7b" = config_ts.
Proof. reflexivity. Qed.

Lemma run_config_ts_with ollama (name : string) w :
  run ollama (config_ts_with name) w =
    MkOutcome
      (<["maxTokens" := Js.Num 4096]>
         (<["systemPrompt" :=
              Js.Str "Ты - опытный программист, помогающий писать чистый и эффективный код."]>
            (<["model" := Js.Ref (ollama name w).1]> ∅)))
      (ollama name w).2
      [name].
Proof. reflexivity. Qed.

(** Claim C7.  Write any two model identifiers on line 6, and run the two
    modules against any factory from any two states of the world: the
    records agree on [systemPrompt] and on [maxTokens], which hold the
    literals of lines 9 and 10, and indeed on every property other than
    [model]. *)
Theorem model_name_leaves_other_fields ollama (name1 name2 : string) w1 w2 :
  let c1 := value (run ollama (config_ts_with name1) w1) in
  let c2 := value (run ollama (config_ts_with name2) w2) in
  c1 !! "systemPrompt" = c2 !! "systemPrompt"
  ∧ c1 !! "maxTokens" = c2 !! "maxTokens"
  ∧ c1 !! "systemPrompt" = value (load ollama w1) !! "systemPrompt"
  ∧ c1 !! "maxTokens" = Some (Js.Num 4096)
  ∧ delete "model" c1 = delete "model" c2.
Proof.
  cbn zeta. rewrite !run_config_ts_with, load_unfold. cbn [value].
  split; [by simplify_map_eq |]. split; [by simplify_map_eq |].
  split; [by simplify_map_eq |]. split; [by simplify_map_eq |].
  apply map_eq. intros k.
  destruct (decide (k = "model")) as [-> | Hk].
  - by rewrite !lookup_delete_eq.
  - rewrite !lookup_delete_ne by done.
    destruct (decide (k = "maxTokens")) as [-> | Ht];
      [by rewrite !lookup_insert_eq |].
    rewrite !(lookup_insert_ne _ "maxTokens") by done.
    destruct (decide (k = "systemPrompt")) as [-> | Hs];
      [by rewrite !lookup_insert_eq |].
    rewrite !(lookup_insert_ne _ "systemPrompt") by done.
    by rewrite !(lookup_insert_ne _ "model") by done.
Qed.

End Determinism.


(** ** The life of the record in a process *)

Section Lifetime.

Context {Model World : Type}.
Implicit Types (ollama : Factory Model World) (w : World).
Implicit Types (o : gmap string (Js.Value Model)).
Implicit Types (ops : list (HostOp Model)).

(** A property nobody assigns to keeps its value. *)
Lemma host_steps_frame o ops (k : string) :
  existsb (writes_to k) ops = false →
  foldl host_step o ops !! k = o !! k.
Proof.
  revert o. induction ops as [| op ops IH]; intros o Hw; [reflexivity |].
  cbn [existsb] in Hw. apply orb_false_elim in Hw as [Hop Hops].
  cbn [foldl]. rewrite IH by done.
  destruct op as [k' | k' v]; [reflexivity |].
  cbn [host_step writes_to] in *. unfold Js.define. cbn [fst snd].
  destruct (String.eqb k' "__proto__"); [reflexivity |].
  apply String.eqb_neq in Hop. by rewrite lookup_insert_ne.
Qed.

(** Reading changes nothing. *)
Lemma host_steps_reads o (ks : list string) :
  foldl host_step o (Read <$> ks) = o.
Proof.
  revert o. induction ks as [| k ks IH]; intros o; [reflexivity |].
  cbn [fmap list_fmap foldl host_step]. apply IH.
Qed.


End Lifetime.


(** ** Effects of a load *)

(** Claim C9.  A load is a finite, synchronous computation: for every
    factory it returns, after the single factory call, and the world it
    leaves is the world that call left, so the module does nothing to the
    outside by itself.  With the provider binding being the lazy descriptor
    the spec describes, the load leaves the world exactly as it found it,
    no request sent, and the [model] field is the pair of provider name and
    model name, to be used later by the host. *)
Theorem load_has_no_effect_of_its_own :
  (∀ (Model World : Type) (ollama : Factory Model World) (w : World),
      world (load ollama w) = (ollama "qwen2.5-coder:7b" w).2
      ∧ calls (load ollama w) = ["qwen2.5-coder:7b"])
  ∧ (∀ (World : Type) (w : World),
        world (load Provider.ollama w) = w
        ∧ value (load Provider.ollama w) !! "model"
          = Some (Js.Ref (Provider.MkModelRef "ollama" "qwen2.5-coder:7b"))).
Proof.
  split.
  - intros Model World ollama w. split; reflexivity.
  - intros World w. split; [reflexivity | apply load_model].
Qed.

(** ** When the factory throws *)

Section Throwing.

Context {Model World E : Type}.
Implicit Types (ollama : ThrowingFactory Model World E) (w : World).

(** On factories that never throw the two ways of running a script agree,
    for every script. *)
Lemma run_try_never_throws {A} (f : Factory Model World)
    (s : Script Model A) w :
  run_try (never_throws (E := E) f) s w
  = MkOutcome (Normal (value (run f s w))) (world (run f s w))
      (calls (run f s w)).
Proof.
  revert w. induction s as [a | name k IH]; intros w; [reflexivity |].
  cbn [run_try run never_throws fst snd value world calls].
  by rewrite IH.
Qed.

Lemma load_try_unfold ollama w :
  load_try ollama w =
    MkOutcome
      (match (ollama "qwen2.5-coder:7b" w).1 with
       | Normal m =>
           Normal (value (load (fun _ (w' : World) => (m, w')) w))
       | Throw e => Throw e
       end)
      (ollama "qwen2.5-coder:7b" w).2
      ["qwen2.5-coder:7b"].
Proof.
  unfold load_try, config_ts. cbn.
  destruct (ollama "qwen2.5-coder:7b" w).1; reflexivity.
Qed.

(** Extra X1.  A load ends with a thrown error exactly when the factory
    call throws, and the error is the factory's: the module catches nothing
    and throws nothing of its own.  Thrown or not, the factory has been
    called once and the world is as the call left it. *)
Theorem load_try_throws_iff ollama w :
  calls (load_try ollama w) = ["qwen2.5-coder:7b"]
  ∧ world (load_try ollama w) = (ollama "qwen2.5-coder:7b" w).2
  ∧ ∀ e : E,
      value (load_try ollama w) = Throw e
      ↔ (ollama "qwen2.5-coder:7b" w).1 = Throw e.
Proof.
  rewrite load_try_unfold. cbn [calls world value].
  split; [reflexivity |]. split; [reflexivity |].
  intros e. destruct (ollama "qwen2.5-coder:7b" w).1 as [m | e'].
  - split; discriminate.
  - split; intros [= ->]; reflexivity.
Qed.

(** Extra X2.  A load ends with a record exactly when the factory call
    returns a handle, and the record is then the one a load builds around
    that handle: [model] is the handle, [systemPrompt] and [maxTokens] are
    the literals.  With a factory that never throws, a load always ends
    with the record of the plain load. *)
Theorem load_try_returns_iff ollama w :
  (∀ c : gmap string (Js.Value Model),
      value (load_try ollama w) = Normal c
      ↔ ∃ m : Model,
          (ollama "qwen2.5-coder:7b" w).1 = Normal m
          ∧ c = <["maxTokens" := Js.Num 4096]>
                  (<["systemPrompt" :=
                       Js.Str "Ты - опытный программист, помогающий писать чистый и эффективный код."]>
                     (<["model" := Js.Ref m]> ∅)))
  ∧ ∀ (f : Factory Model World),
      value (load_try (never_throws (E := E) f) w)
      = Normal (value (load f w)).
Proof.
  split.
  - intros c. rewrite load_try_unfold. cbn [value].
    destruct (ollama "qwen2.5-coder:7b" w).1 as [m | e].
    + rewrite load_unfold. cbn [value fst]. split.
      * intros [= <-]. by exists m.
      * intros (m' & [= <-] & ->). reflexivity.
    + split; [discriminate | intros (m & Hm & _); discriminate].
  - intros f. unfold load_try, load. by rewrite run_try_never_throws.
Qed.

End Throwing.

(** ** Object literals in general *)

Section ObjectLiteral.

Context {Model : Type}.
Implicit Types (props : list (string * Js.Value Model)).
Implicit Types (k : string) (v : Js.Value Model).
Implicit Types (o : gmap string (Js.Value Model)).
Implicit Types (p : string * Js.Value Model).

Lemma define_own o p :
  Js.own p → Js.define o p = <[p.1 := p.2]> o.
Proof.
  unfold Js.own, Js.define. intros Hp.
  apply String.eqb_neq in Hp. by rewrite Hp.
Qed.

Lemma define_proto o p :
  ¬ Js.own p → Js.define o p = o.
Proof.
  unfold Js.own, Js.define. intros Hp.
  destruct (String.eqb_spec p.1 "__proto__") as [_ | Hne]; [done |].
  by destruct Hp.
Qed.

(** Defining left to right is building the map from the reversed list of
    the initialisers that define a property. *)
Lemma literal_reverse props :
  Js.literal props = list_to_map (reverse (filter Js.own props)).
Proof.
  induction props as [| p props IH] using rev_ind; [reflexivity |].
  unfold Js.literal in *. rewrite foldl_snoc, IH, filter_app.
  destruct (decide (Js.own p)) as [Hp | Hp].
  - rewrite define_own by done.
    rewrite (filter_cons_True _ _ _ Hp), filter_nil, reverse_snoc.
    by destruct p.
  - rewrite define_proto by done.
    by rewrite (filter_cons_False _ _ _ Hp), filter_nil, app_nil_r.
Qed.

Lemma NoDup_filter_names props :
  NoDup props.*1 → NoDup (filter Js.own props).*1.
Proof.
  intros Hnames. apply (sublist_NoDup _ _ Hnames).
  apply fmap_sublist, sublist_filter.
Qed.

(** Extra X4.  When the property names of an object literal are pairwise
    distinct, as the three of [config.ts] are, the object holds what is
    written: a name has a value among the object's Js.own properties if and
    only if the literal gives the name that value and the name is not
    [__proto__], and the object has one Js.own property for each initialiser
    whose name is not [__proto__]. *)
Theorem literal_distinct_names props (Hnames : NoDup props.*1) :
  (∀ k v, Js.literal props !! k = Some v
          ↔ (k, v) ∈ props ∧ k ≠ "__proto__")
  ∧ size (Js.literal props) = length (filter Js.own props).
Proof.
  assert (NoDup (reverse (filter Js.own props)).*1) as Hrev
    by (by rewrite fmap_reverse, reverse_Permutation;
        apply NoDup_filter_names).
  rewrite literal_reverse. split.
  - intros k v. rewrite <- elem_of_list_to_map by done.
    rewrite elem_of_reverse, list_elem_of_filter. unfold Js.own. cbn [fst].
    tauto.
  - rewrite map_size_list_to_map by done. apply length_reverse.
Qed.

End ObjectLiteral.

(** Witness for X4: the three properties of [config.ts], around the
    handle [0]. *)
Lemma literal_distinct_names_witness :
  NoDup ([ ("model", Js.Ref 0%nat);
           ("systemPrompt", Js.Str "prompt");
           ("maxTokens", Js.Num 4096) ].*1)
  ∧ size (Js.literal [ ("model", Js.Ref 0%nat);
                       ("systemPrompt", Js.Str "prompt");
                       ("maxTokens", Js.Num 4096) ]) = 3%nat.
Proof.
  assert (NoDup ([ ("model", Js.Ref 0%nat);
                   ("systemPrompt", @Js.Str nat "prompt");
                   ("maxTokens", Js.Num 4096) ].*1)) as Hnames
    by (apply (bool_decide_unpack _); vm_compute; reflexivity).
  split; [exact Hnames |].
  apply (literal_distinct_names _ Hnames).
Defined.

(** The literal [{ __proto__: 1, a: 2 }] has the one Js.own property [a]. *)
Example literal_proto :
  Js.literal [("__proto__", @Js.Num unit 1); ("a", Js.Num 2)]
  = {[ "a" := Js.Num 2 ]}.
Proof. reflexivity. Qed.
